(** * regenerate_docs.py: the OpenAPI-to-MDX page generator

    A shallow embedding of [src/regenerate_docs.py] and the properties its
    specification states about it.

    The script walks the tree that [json.load] returns, so the embedding
    keeps that tree as it is: a value is [None], a [bool], an [int], a
    [str], a [list] or a [dict], and every operation of the script on such
    a value is given for all of them, raising where Python raises.

    Conventions of the embedding:
    - a [str] is a [string] of bytes (the UTF-8 text); [upper] and [lower]
      change the ASCII letters only, which is what Python does on ASCII
      text;
    - a JSON number is an integer ([float] values are left out of [json]);
    - a [dict] is an association list in insertion order; [json.load]
      never builds one with a repeated key;
    - the directory operations and the writes of the batch driver are
      taken to succeed. *)

From Stdlib Require Import String Ascii ZArith.
From stdpp Require Import base option list gmap strings pretty.

(** ** Python strings *)

Module PyStr.

Definition chr (n : nat) : string := String (ascii_of_nat n) EmptyString.

(** The characters that a string literal of this file cannot hold. *)
Definition dq : string := chr 34.
Definition nl : string := chr 10.
Definition bs : string := chr 92.

Definition slash : ascii := ascii_of_nat 47.
Definition hyphen : ascii := ascii_of_nat 45.

Definition is_upper (c : ascii) : bool :=
  let n := nat_of_ascii c in (65 <=? n)%nat && (n <=? 90)%nat.

Definition is_lower (c : ascii) : bool :=
  let n := nat_of_ascii c in (97 <=? n)%nat && (n <=? 122)%nat.

Definition lower_char (c : ascii) : ascii :=
  if is_upper c then ascii_of_nat (nat_of_ascii c + 32) else c.

Definition upper_char (c : ascii) : ascii :=
  if is_lower c then ascii_of_nat (nat_of_ascii c - 32) else c.

Fixpoint map_chars (f : ascii → ascii) (s : string) : string :=
  match s with
  | EmptyString => EmptyString
  | String c s' => String (f c) (map_chars f s')
  end.

(** [s.lower()] and [s.upper()] *)
Definition lower : string → string := map_chars lower_char.
Definition upper : string → string := map_chars upper_char.

(** [s.lstrip(c)] for a one-character argument: every leading [c] goes. *)
Fixpoint lstrip (c : ascii) (s : string) : string :=
  match s with
  | EmptyString => EmptyString
  | String a s' => if Ascii.eqb a c then lstrip c s' else s
  end.

(** [s.replace(c, d)] for one-character arguments. *)
Definition replace (c d : ascii) : string → string :=
  map_chars (λ a, if Ascii.eqb a c then d else a).

(** [s.split(c)] for a one-character separator. [split_go cur s] carries
    the piece being read, reversed. *)
Fixpoint split_go (c : ascii) (cur : string) (s : string) : list string :=
  match s with
  | EmptyString => [String.rev cur]
  | String a s' =>
      if Ascii.eqb a c then String.rev cur :: split_go c EmptyString s'
      else split_go c (String a cur) s'
  end.

Definition split (c : ascii) (s : string) : list string :=
  split_go c EmptyString s.

(** [s.startswith(p)] *)
Fixpoint startswith (p s : string) : bool :=
  match p, s with
  | EmptyString, _ => true
  | String a p', String b s' => Ascii.eqb a b && startswith p' s'
  | String _ _, EmptyString => false
  end.

(** [p in s] for two strings: [p] occurs in [s]. *)
Fixpoint contains (p s : string) : bool :=
  startswith p s ||
  match s with
  | EmptyString => false
  | String _ s' => contains p s'
  end.

(** [''.join(l)] and [sep.join(l)] *)
Definition concat (l : list string) : string := foldr String.app EmptyString l.

Fixpoint join (sep : string) (l : list string) : string :=
  match l with
  | [] => EmptyString
  | [x] => x
  | x :: l' => x +:+ sep +:+ join sep l'
  end.

Definition is_empty (s : string) : bool :=
  match s with EmptyString => true | _ => false end.

End PyStr.

Import PyStr.

(** ** The filename of a page *)

(** [clean_filename(path, method)], lines 16-22. *)
Definition clean_filename (path method : string) : string :=
  let clean_path := replace slash hyphen (lstrip slash path) in
  let filename := lower method +:+ "-" +:+ clean_path +:+ ".mdx" in
  filename.

(** ** The values of [json.load] *)

#[warnings="-register-all"] Inductive json : Type :=
  | JNull
  | JBool (b : bool)
  | JNum (n : Z)
  | JStr (s : string)
  | JArr (l : list json)
  | JObj (d : list (string * json)).

Abbreviation dict := (list (string * json)).

(** The exceptions the script can meet on such values. *)
Inductive exn : Type := AttributeError | TypeError | KeyError | IndexError.

Inductive result (A : Type) : Type :=
  | Ok (a : A)
  | Raise (e : exn).
Arguments Ok {A} a.
Arguments Raise {A} e.

#[global] Instance result_ret : MRet result := @Ok.
#[global] Instance result_bind : MBind result := λ A B f m,
  match m with
  | Ok a => f a
  | Raise e => Raise e
  end.

Module Py.

(** [d[k]] on the entries of a dict; the first entry with the key. *)
Fixpoint lookup (k : string) (d : dict) : option json :=
  match d with
  | [] => None
  | (k', v) :: d' => if String.eqb k k' then Some v else lookup k d'
  end.

Definition keys (d : dict) : list string := d.*1.

(** [bool(v)] *)
Definition truthy (v : json) : bool :=
  match v with
  | JNull => false
  | JBool b => b
  | JNum n => negb (Z.eqb n 0)
  | JStr s => negb (is_empty s)
  | JArr l => match l with [] => false | _ => true end
  | JObj d => match d with [] => false | _ => true end
  end.

(** [v.get(k, default)]: only a dict has the method. *)
Definition get (v : json) (k : string) (dflt : json) : result json :=
  match v with
  | JObj d => Ok (default dflt (lookup k d))
  | _ => Raise AttributeError
  end.

(** [v == s] for a string literal [s] *)
Definition eq_str (v : json) (s : string) : bool :=
  match v with
  | JStr s' => String.eqb s' s
  | _ => false
  end.

(** [k in v] for a string [k]: a key of a dict, an element of a list, a
    piece of a string. *)
Definition contains (k : string) (v : json) : result bool :=
  match v with
  | JObj d => Ok (bool_decide (is_Some (lookup k d)))
  | JArr l => Ok (existsb (λ x, eq_str x k) l)
  | JStr s => Ok (PyStr.contains k s)
  | _ => Raise TypeError
  end.

(** [v[k]] for a string [k] *)
Definition getitem (v : json) (k : string) : result json :=
  match v with
  | JObj d => match lookup k d with Some x => Ok x | None => Raise KeyError end
  | _ => Raise TypeError
  end.

(** [iter(v)]: the elements of a list, the keys of a dict, the
    characters of a string. *)
Definition iter (v : json) : result (list json) :=
  match v with
  | JArr l => Ok l
  | JObj d => Ok (JStr <$> keys d)
  | JStr s => Ok ((λ c, JStr (String c EmptyString)) <$> list_ascii_of_string s)
  | _ => Raise TypeError
  end.

(** [v.items()] *)
Definition items (v : json) : result dict :=
  match v with
  | JObj d => Ok d
  | _ => Raise AttributeError
  end.

(** [v.split(c)] *)
Definition split (v : json) (c : ascii) : result (list string) :=
  match v with
  | JStr s => Ok (PyStr.split c s)
  | _ => Raise AttributeError
  end.

(** [l[-1]] *)
Definition last_item (l : list string) : result string :=
  match last l with
  | Some x => Ok x
  | None => Raise IndexError
  end.

(** [repr(s)] of a string: the quote is the single one unless the string
    holds a single quote and no double one; the quote, the backslash and
    the control characters are escaped. *)
Definition hex_digit (n : nat) : ascii :=
  ascii_of_nat (if (n <? 10)%nat then 48 + n else 87 + n).

Definition hex2 (n : nat) : string :=
  String (hex_digit (n / 16)) (String (hex_digit (n mod 16)) EmptyString).

Definition repr_char (q c : ascii) : string :=
  let n := nat_of_ascii c in
  if Ascii.eqb c q || (n =? 92)%nat then bs +:+ String c EmptyString
  else if (n =? 9)%nat then bs +:+ "t"
  else if (n =? 10)%nat then bs +:+ "n"
  else if (n =? 13)%nat then bs +:+ "r"
  else if (n <? 32)%nat || (n =? 127)%nat then bs +:+ "x" +:+ hex2 n
  else String c EmptyString.

Fixpoint escape (q : ascii) (s : string) : string :=
  match s with
  | EmptyString => EmptyString
  | String c s' => repr_char q c +:+ escape q s'
  end.

Definition repr_str (s : string) : string :=
  let q := if PyStr.contains "'" s && negb (PyStr.contains dq s)
           then ascii_of_nat 34 else ascii_of_nat 39 in
  String q (escape q s +:+ String q EmptyString).

(** [repr(v)] *)
Fixpoint repr (v : json) : string :=
  match v with
  | JNull => "None"
  | JBool b => if b then "True" else "False"
  | JNum n => pretty n
  | JStr s => repr_str s
  | JArr l => "[" +:+ join ", " (List.map repr l) +:+ "]"
  | JObj d =>
      "{" +:+ join ", " (List.map (λ kv, repr_str kv.1 +:+ ": " +:+ repr kv.2) d)
      +:+ "}"
  end.

(** [str(v)], what an f-string puts for [{v}] *)
Definition str (v : json) : string :=
  match v with
  | JStr s => s
  | _ => repr v
  end.

(** [for x in l: body], threading the variables the body assigns. *)
Fixpoint for_each {A S : Type} (l : list A) (body : A → S → result S)
    (s : S) : result S :=
  match l with
  | [] => Ok s
  | x :: l' => s' ← body x s; for_each l' body s'
  end.

End Py.

(** ** The page of one operation *)

Definition quoted (s : string) : string := dq +:+ s +:+ dq.

(** The f-string of lines 53 and 62; [kind] is [path] or [query]. *)
Definition param_field (kind param_name param_type required description : string)
    : string :=
  "<ParamField " +:+ kind +:+ "=" +:+ quoted param_name +:+ " type="
  +:+ quoted param_type +:+ " " +:+ required +:+ ">" +:+ nl
  +:+ "  " +:+ description +:+ nl
  +:+ "</ParamField>" +:+ nl +:+ nl.

(** The f-strings of lines 42 and 44; [detail] is what follows
    [Request body data]. *)
Definition body_field (detail : string) : string :=
  "<ParamField body=" +:+ quoted "data" +:+ " type=" +:+ quoted "object"
  +:+ " required>" +:+ nl
  +:+ "  Request body data" +:+ detail +:+ nl
  +:+ "</ParamField>" +:+ nl +:+ nl.

(** The f-strings of lines 73-75 and 80-82. *)
Definition response_field (name type text : string) : string :=
  "<ResponseField name=" +:+ quoted name +:+ " type=" +:+ quoted type +:+ ">"
  +:+ nl +:+ "  " +:+ text +:+ nl
  +:+ "</ResponseField>" +:+ nl +:+ nl.

(** Lines 34-44: the field of the request body. *)
Definition request_body_fields (request_body : json) : result string :=
  let request_fields := EmptyString in
  has_content ←
    (if Py.truthy request_body then Py.contains "content" request_body
     else Ok false);
  if has_content : bool then
    content ← Py.getitem request_body "content";
    is_json ← Py.contains "application/json" content;
    if is_json : bool then
      media ← Py.getitem content "application/json";
      schema ← Py.get media "schema" (JObj []);
      has_ref ← Py.contains "$ref" schema;
      if has_ref : bool then
        ref ← Py.getitem schema "$ref";
        parts ← Py.split ref slash;
        schema_name ← Py.last_item parts;
        Ok (body_field (" (" +:+ schema_name +:+ ")"))
      else
        Ok (body_field EmptyString)
    else Ok request_fields
  else Ok request_fields.

(** The body of the loops of lines 47-53 ([kind] is [path]) and 56-62
    ([kind] is [query]), which differ in that word only. The loop assigns
    [request_fields] and [description]. *)
Definition param_step (kind : string) (param : json) (vars : string * json)
    : result (string * json) :=
  let '(request_fields, description) := vars in
  loc ← Py.get param "in" JNull;
  if Py.eq_str loc kind then
    param_name ← Py.get param "name" (JStr EmptyString);
    schema ← Py.get param "schema" (JObj []);
    param_type ← Py.get schema "type" (JStr "string");
    req ← Py.get param "required" (JBool false);
    let required := if Py.truthy req then "required" else EmptyString in
    description ←
      Py.get param "description" (JStr (Py.str param_name +:+ " parameter"));
    Ok (request_fields
          +:+ param_field kind (Py.str param_name) (Py.str param_type) required
                (Py.str description),
        description)
  else Ok (request_fields, description).

(** Lines 47-62: the two loops over [parameters]. *)
Definition add_parameters (parameters : json) (vars : string * json)
    : result (string * json) :=
  params ← Py.iter parameters;
  vars ← Py.for_each params (param_step "path") vars;
  params ← Py.iter parameters;
  Py.for_each params (param_step "query") vars.

(** Lines 71-75: the fields of the success response. *)
Definition add_success_fields (success_response : json)
    (response_fields : string) : string :=
  if Py.truthy success_response then
    let response_fields :=
      response_fields +:+ "### Success Responses" +:+ nl +:+ nl in
    let response_fields :=
      response_fields
      +:+ response_field "status" "number" "HTTP status code: 200" in
    let response_fields :=
      response_fields +:+ response_field "message" "string" "Success message" in
    let response_fields :=
      response_fields +:+ response_field "data" "object" "Response data" in
    response_fields
  else response_fields.

(** Line 67: the test of the comprehension. *)
Definition is_error_status (k : string) : bool :=
  startswith "4" k || startswith "5" k.

(** Lines 80-82: the body of the loop over the error responses. *)
Definition error_step (response_fields : string) (item : string * json)
    : string :=
  let '(status_code, response) := item in
  let response_fields :=
    response_fields
    +:+ response_field "status" "number" ("HTTP status code: " +:+ status_code) in
  let response_fields :=
    response_fields +:+ response_field "message" "string" "Error message" in
  let response_fields :=
    response_fields +:+ response_field "error" "object" "Error details" in
  response_fields.

(** Lines 77-82: the fields of the error responses. *)
Definition add_error_fields (error_responses : dict)
    (response_fields : string) : string :=
  match error_responses with
  | [] => response_fields
  | _ :: _ =>
      let response_fields :=
        response_fields +:+ "### Error Responses" +:+ nl +:+ nl in
      foldl error_step response_fields error_responses
  end.

(** Lines 66-82, on the [responses] of line 65. *)
Definition response_fields_of (responses : json) : result string :=
  success_response ← Py.get responses "200" (JObj []);
  items ← Py.items responses;
  let error_responses := filter (λ kv, is_error_status kv.1) items in
  let response_fields := EmptyString in
  let response_fields := add_success_fields success_response response_fields in
  let response_fields := add_error_fields error_responses response_fields in
  Ok response_fields.

(** Lines 85-156: the example of a request and of its answers. *)
Definition example_requests (path method : string) : string :=
  join nl [
    "## Example Request";
    "";
    "<CodeGroup>";
    "";
    "```bash cURL";
    "curl -X " +:+ upper method +:+ " " +:+ bs;
    "  '" +:+ path +:+ "' " +:+ bs;
    "  -H 'Content-Type: application/json' " +:+ bs;
    "  -H 'Authorization: Bearer YOUR_TOKEN'";
    "```";
    "";
    "```javascript JavaScript";
    "const response = await fetch('" +:+ path +:+ "', {";
    "  method: '" +:+ upper method +:+ "',";
    "  headers: {";
    "    'Content-Type': 'application/json',";
    "    'Authorization': 'Bearer YOUR_TOKEN'";
    "  },";
    "  body: JSON.stringify({";
    "    // Request body data";
    "  })";
    "});";
    "";
    "const data = await response.json();";
    "console.log(data);";
    "```";
    "";
    "```python Python";
    "import requests";
    "";
    "url = '" +:+ path +:+ "'";
    "headers = {";
    "    'Content-Type': 'application/json',";
    "    'Authorization': 'Bearer YOUR_TOKEN'";
    "}";
    "data = {";
    "    # Request body data";
    "}";
    "";
    "response = requests." +:+ lower method
      +:+ "(url, headers=headers, json=data)";
    "result = response.json()";
    "print(result)";
    "```";
    "";
    "</CodeGroup>";
    "";
    "## Example Response";
    "";
    "### Success Response";
    "";
    "```json";
    "{";
    "  " +:+ quoted "status" +:+ ": 200,";
    "  " +:+ quoted "message" +:+ ": " +:+ quoted "Success" +:+ ",";
    "  " +:+ quoted "data" +:+ ": {";
    "    " +:+ quoted "key" +:+ ": " +:+ quoted "value";
    "  }";
    "}";
    "```";
    "";
    "### Error Response";
    "";
    "```json";
    "{";
    "  " +:+ quoted "status" +:+ ": 400,";
    "  " +:+ quoted "message" +:+ ": " +:+ quoted "Bad Request" +:+ ",";
    "  " +:+ quoted "error" +:+ ": {";
    "    " +:+ quoted "code" +:+ ": " +:+ quoted "VALIDATION_ERROR" +:+ ",";
    "    " +:+ quoted "details" +:+ ": " +:+ quoted "Invalid input data";
    "  }";
    "}";
    "```"
  ].

(** Lines 162-166: the note on authentication. *)
Definition AUTH_NOTE : string :=
  "<Note>" +:+ nl
  +:+ "This endpoint requires authentication. Include your API key in the `X-API-Key` header or use Bearer token authentication."
  +:+ nl +:+ "</Note>" +:+ nl +:+ nl.

(** Lines 159-166. *)
Definition auth_note_of (security : json) : string :=
  let auth_note := EmptyString in
  if Py.truthy security then AUTH_NOTE else auth_note.

(** Lines 169-183: the f-string of the page. *)
Definition mdx_content (path method title description auth_note
    request_fields response_fields example_requests : string) : string :=
  "---" +:+ nl
  +:+ "title: " +:+ quoted title +:+ nl
  +:+ "api: " +:+ quoted (upper method +:+ " " +:+ path) +:+ nl
  +:+ "description: " +:+ quoted description +:+ nl
  +:+ "---" +:+ nl
  +:+ nl
  +:+ "## Overview" +:+ nl
  +:+ nl
  +:+ description +:+ nl
  +:+ nl
  +:+ auth_note +:+ "## Request" +:+ nl
  +:+ nl
  +:+ request_fields +:+ "## Response Codes" +:+ nl
  +:+ nl
  +:+ response_fields +:+ example_requests.

(** [generate_mdx_content(path, method, operation)], lines 24-185. *)
Definition generate_mdx_content (path method : string) (operation : json)
    : result string :=
  title ← Py.get operation "summary" (JStr (upper method +:+ " " +:+ path));
  description ←
    Py.get operation "description"
      (JStr ("API endpoint: " +:+ upper method +:+ " " +:+ path));
  parameters ← Py.get operation "parameters" (JArr []);
  request_body ← Py.get operation "requestBody" (JObj []);
  request_fields ← request_body_fields request_body;
  '(request_fields, description) ←
    add_parameters parameters (request_fields, description);
  responses ← Py.get operation "responses" (JObj []);
  response_fields ← response_fields_of responses;
  let example_requests := example_requests path method in
  security ← Py.get operation "security" (JArr []);
  let auth_note := auth_note_of security in
  Ok (mdx_content path method (Py.str title) (Py.str description) auth_note
        request_fields response_fields example_requests).

(** ** The batch driver *)

(** What a run works on: the files of the directory [api] by name, the
    counter, and the lines printed so far. *)
Record run : Type := Run {
  api_dir : gmap string string;
  generated_count : nat;
  stdout : list string
}.

(** How a run ends: at its last statement, or at the first exception, with
    the files written until then. *)
Inductive outcome : Type :=
  | Done (r : run)
  | Failed (e : exn) (r : run).

Definition SUPPORTED_METHODS : list string :=
  ["GET"; "POST"; "PUT"; "PATCH"; "DELETE"].

(** Line 205: [method.upper() in ['GET', 'POST', 'PUT', 'PATCH', 'DELETE']] *)
Definition supported (method : string) : bool :=
  bool_decide (upper method ∈ SUPPORTED_METHODS).

(** Lines 205-218: the body of the inner loop. *)
Definition operation_step (path : string) (item : string * json) (r : run)
    : outcome :=
  let '(method, operation) := item in
  if supported method then
    let filename := clean_filename path method in
    let filepath := "api/" +:+ filename in
    match generate_mdx_content path method operation with
    | Ok content =>
        Done {| api_dir := <[filename := content]> (api_dir r);
                generated_count := generated_count r + 1;
                stdout := stdout r ++ ["Generated: " +:+ filepath] |}
    | Raise e => Failed e r
    end
  else Done r.

(** A loop of the driver: it stops at the first exception. *)
Fixpoint run_each {A : Type} (body : A → run → outcome) (l : list A) (r : run)
    : outcome :=
  match l with
  | [] => Done r
  | x :: l' =>
      match body x r with
      | Done r' => run_each body l' r'
      | Failed e r' => Failed e r'
      end
  end.

(** Lines 203-218: the body of the outer loop. *)
Definition path_step (item : string * json) (r : run) : outcome :=
  let '(path, path_item) := item in
  match Py.items path_item with
  | Ok operations => run_each (operation_step path) operations r
  | Raise e => Failed e r
  end.

(** [regenerate_all_docs()], lines 187-220, on the document [spec] that
    [load_openapi_spec()] returns, from the files [files] that [api] holds
    and the lines [out] printed before. Line 190 reads [paths] before the
    directory is touched; then [api] is removed and made anew, so the loops
    start from no file whatever was there. *)
Definition regenerate_all_docs (spec : json) (files : gmap string string)
    (out : list string) : outcome :=
  match Py.get spec "paths" (JObj []) with
  | Raise e => Failed e (Run files 0 out)
  | Ok paths =>
      let r := {| api_dir := ∅; generated_count := 0; stdout := out |} in
      match Py.items paths with
      | Raise e => Failed e r
      | Ok items =>
          match run_each path_step items r with
          | Done r =>
              Done {| api_dir := api_dir r;
                      generated_count := generated_count r;
                      stdout := stdout r ++
                        [nl +:+ "Generated " +:+ pretty (generated_count r)
                         +:+ " API documentation files"] |}
          | Failed e r => Failed e r
          end
      end
  end.

(** ** The data model of the specification

    What section 3 of the specification takes an Operation to be: every
    attribute is optional and has the type given there. *)

Definition is_str (v : json) : bool :=
  match v with JStr _ => true | _ => false end.
Definition is_bool (v : json) : bool :=
  match v with JBool _ => true | _ => false end.
Definition is_arr (v : json) : bool :=
  match v with JArr _ => true | _ => false end.
Definition is_obj (v : json) : bool :=
  match v with JObj _ => true | _ => false end.

(** The attribute [k] of [d] is absent or satisfies [P]. *)
Definition attr (P : json → bool) (k : string) (d : dict) : bool :=
  match Py.lookup k d with
  | Some v => P v
  | None => true
  end.

Definition wf_schema (v : json) : bool :=
  match v with
  | JObj s => attr is_str "type" s && attr is_str "$ref" s
  | _ => false
  end.

Definition wf_parameter (v : json) : bool :=
  match v with
  | JObj p =>
      attr is_str "name" p && attr is_str "in" p && attr wf_schema "schema" p
      && attr is_bool "required" p && attr is_str "description" p
  | _ => false
  end.

Definition wf_parameters (v : json) : bool :=
  match v with
  | JArr l => forallb wf_parameter l
  | _ => false
  end.

Definition wf_media (v : json) : bool :=
  match v with
  | JObj m => attr wf_schema "schema" m
  | _ => false
  end.

Definition wf_content (v : json) : bool :=
  match v with
  | JObj c => attr wf_media "application/json" c
  | _ => false
  end.

Definition wf_request_body (v : json) : bool :=
  match v with
  | JObj rb => attr wf_content "content" rb
  | _ => false
  end.

Definition wf_operation (v : json) : bool :=
  match v with
  | JObj d =>
      attr is_str "summary" d && attr is_str "description" d
      && attr wf_parameters "parameters" d
      && attr wf_request_body "requestBody" d
      && attr is_obj "responses" d && attr is_arr "security" d
  | _ => false
  end.




(** ** The page as section 4 of the specification describes it

    These definitions follow the words of the specification; the theorems
    below compare them with the script. *)

(** The string attribute [k] of [d], or [dflt]. *)
Definition text (k dflt : string) (d : dict) : string :=
  match Py.lookup k d with
  | Some (JStr s) => s
  | _ => dflt
  end.

Definition op_parameters (d : dict) : list json :=
  match Py.lookup "parameters" d with
  | Some (JArr l) => l
  | _ => []
  end.

Definition op_responses (d : dict) : dict :=
  match Py.lookup "responses" d with
  | Some (JObj r) => r
  | _ => []
  end.

(** 4.2: strip a single leading path separator. *)
Definition strip_one (c : ascii) (s : string) : string :=
  match s with
  | String a s' => if Ascii.eqb a c then s' else s
  | EmptyString => EmptyString
  end.

Definition spec_clean_filename (path method : string) : string :=
  lower method +:+ "-" +:+ replace slash hyphen (strip_one slash path)
  +:+ ".mdx".

Fixpoint slashes (n : nat) : string :=
  match n with
  | 0 => EmptyString
  | S n' => String slash (slashes n')
  end.

(** 4.3: the parameter's [in] is [kind]. *)
Definition located (kind : string) (p : json) : bool :=
  match p with
  | JObj pd => Py.eq_str (default JNull (Py.lookup "in" pd)) kind
  | _ => false
  end.

Definition param_description (p : json) : string :=
  match p with
  | JObj pd => text "description" (text "name" "" pd +:+ " parameter") pd
  | _ => EmptyString
  end.

(** 4.3, step 2: name, declared type (default [string]), a required marker
    when [required] is true, and a description (falling back to the name
    followed by [parameter]). *)
Definition param_block (kind : string) (p : json) : string :=
  match p with
  | JObj pd =>
      let type :=
        match Py.lookup "schema" pd with
        | Some (JObj s) => text "type" "string" s
        | _ => "string"
        end in
      let required :=
        match Py.lookup "required" pd with
        | Some (JBool true) => "required"
        | _ => EmptyString
        end in
      param_field kind (text "name" "" pd) type required (param_description p)
  | _ => EmptyString
  end.

Definition param_blocks (kind : string) (params : list json) : string :=
  concat (param_block kind <$> filter (λ p, located kind p) params).

(** The [application/json] entry of the request body, if there is one. *)
Definition json_media (d : dict) : option json :=
  match Py.lookup "requestBody" d with
  | Some (JObj rb) =>
      match Py.lookup "content" rb with
      | Some (JObj c) => Py.lookup "application/json" c
      | _ => None
      end
  | _ => None
  end.

(** The reference of the schema of a media entry, if it is one. *)
Definition schema_ref (media : json) : option string :=
  match media with
  | JObj m =>
      match Py.lookup "schema" m with
      | Some (JObj s) =>
          match Py.lookup "$ref" s with
          | Some (JStr r) => Some r
          | _ => None
          end
      | _ => None
      end
  | _ => None
  end.

Fixpoint has_char (c : ascii) (s : string) : bool :=
  match s with
  | EmptyString => false
  | String a s' => Ascii.eqb a c || has_char c s'
  end.

(** The last path segment of a reference: what follows its last [c]. *)
Fixpoint after_last (c : ascii) (s : string) : string :=
  match s with
  | EmptyString => EmptyString
  | String a s' => if has_char c s then after_last c s' else s
  end.

Definition body_detail (media : json) : string :=
  match schema_ref media with
  | Some r => " (" +:+ after_last slash r +:+ ")"
  | None => EmptyString
  end.

(** 4.3, step 1. *)
Definition body_block (d : dict) : string :=
  match json_media d with
  | Some media => body_field (body_detail media)
  | None => EmptyString
  end.

(** 4.3: body field, then path fields, then query fields. *)
Definition spec_request_fields (d : dict) : string :=
  body_block d +:+ param_blocks "path" (op_parameters d)
  +:+ param_blocks "query" (op_parameters d).

(** 4.4: the three fixed fields of the success group. *)
Definition SUCCESS_GROUP : string :=
  "### Success Responses" +:+ nl +:+ nl
  +:+ response_field "status" "number" "HTTP status code: 200"
  +:+ response_field "message" "string" "Success message"
  +:+ response_field "data" "object" "Response data".

(** 4.4: the triplet of one error status. *)
Definition error_triplet (status_code : string) : string :=
  response_field "status" "number" ("HTTP status code: " +:+ status_code)
  +:+ response_field "message" "string" "Error message"
  +:+ response_field "error" "object" "Error details".

Definition error_codes (r : dict) : list string :=
  filter (λ k, is_error_status k) (Py.keys r).

Definition error_group (r : dict) : string :=
  match error_codes r with
  | [] => EmptyString
  | codes => "### Error Responses" +:+ nl +:+ nl +:+ concat (error_triplet <$> codes)
  end.

(** The [200] entry of the mapping is there and is not empty. *)
Definition has_success (r : dict) : bool :=
  match Py.lookup "200" r with
  | Some v => Py.truthy v
  | None => false
  end.

Definition success_group (r : dict) : string :=
  if has_success r then SUCCESS_GROUP else EmptyString.

(** 4.6: [security] is present and non-empty. *)
Definition requires_auth (d : dict) : bool :=
  match Py.lookup "security" d with
  | Some (JArr (_ :: _)) => true
  | _ => false
  end.

Definition own_title (path method : string) (d : dict) : string :=
  text "summary" (upper method +:+ " " +:+ path) d.

Definition own_description (path method : string) (d : dict) : string :=
  text "description" ("API endpoint: " +:+ upper method +:+ " " +:+ path) d.

(** The description left by a loop: that of the last parameter it took. *)
Definition description_after (kind : string) (params : list json)
    (desc : string) : string :=
  match last (filter (λ p, located kind p) params) with
  | Some p => param_description p
  | None => desc
  end.

(** The text the script has in [description] when it fills the template:
    the description of the last [query] parameter, else of the last [path]
    parameter, else the Operation's own. *)
Definition shown_description (path method : string) (d : dict) : string :=
  description_after "query" (op_parameters d)
    (description_after "path" (op_parameters d)
       (own_description path method d)).

(** The front matter of a page, down to the title line. *)
Definition title_lines (title : string) : string :=
  "---" +:+ nl +:+ "title: " +:+ quoted title +:+ nl.

(** 4.7: the (path, method, operation) triples of a specification in its
    iteration order, and those under a supported method. *)
Definition spec_paths (top : dict) : dict :=
  match Py.lookup "paths" top with
  | Some (JObj ps) => ps
  | _ => []
  end.








(** Two method names that differ in the case of their letters only. *)
Definition same_method (m1 m2 : string) : Prop := lower m1 = lower m2.

(** ** Sample inputs *)

Module Sample.

Definition param (name loc : string) : json :=
  JObj [("name", JStr name); ("in", JStr loc)].

(** An Operation with a description and one path parameter. *)
Definition fetch_user : json :=
  JObj [("description", JStr "Fetch a user");
        ("parameters", JArr [param "id" "path"])].


(** A JSON request body whose schema is a reference. *)
Definition user_media : json :=
  JObj [("schema", JObj [("$ref", JStr "#/components/schemas/User")])].

Definition create_user : dict :=
  [("summary", JStr "Create a user");
   ("requestBody", JObj [("content", JObj [("application/json", user_media)])]);
   ("responses", JObj [("201", JObj [("description", JStr "Created")])]);
   ("security", JArr [JObj [("bearerAuth", JArr [])]])].

(** An Operation with nothing but its responses. *)
Definition ping : dict :=
  [("responses", JObj [("200", JObj [("description", JStr "OK")])])].

(** A specification with a path-level attribute that is no method. *)
Definition openapi : dict :=
  [("openapi", JStr "3.0.0");
   ("paths",
    JObj [("/users", JObj [("get", JObj ping); ("POST", JObj create_user);
                           ("parameters", JArr [])]);
          ("/users/{id}", JObj [("get", fetch_user)])])].

End Sample.

(** ** Runs and inputs for the further properties *)

(** The run an outcome ends with. *)
Definition run_of (o : outcome) : run :=
  match o with
  | Done r => r
  | Failed _ r => r
  end.

(** Two runs with the same files and the same counter; they may have
    printed different lines. *)
Definition same_files (r1 r2 : run) : Prop :=
  api_dir r1 = api_dir r2 ∧ generated_count r1 = generated_count r2.

Definition same_outcome (o1 o2 : outcome) : Prop :=
  match o1, o2 with
  | Done r1, Done r2 => same_files r1 r2
  | Failed e1 r1, Failed e2 r2 => e1 = e2 ∧ same_files r1 r2
  | _, _ => False
  end.

(** The counter of [r] counts the lines printed after [out], and no file
    is there that was not counted. *)
Definition counted (out : list string) (r : run) : Prop :=
  length (stdout r) = length out + generated_count r
  ∧ size (api_dir r) ≤ generated_count r.

(** A parameter that one of the two loops renders. *)
Definition rendered (p : json) : bool :=
  located "path" p || located "query" p.

(** A value with no iterator. *)
Definition not_iterable (v : json) : bool :=
  match v with
  | JNull | JBool _ | JNum _ => true
  | _ => false
  end.

Module More.

(** A header parameter between a path and a query parameter. *)
Definition traced : list json :=
  [Sample.param "id" "path"; Sample.param "X-Trace" "header";
   Sample.param "limit" "query"].

(** An Operation whose request body is a form, with parameters. *)
Definition upload : dict :=
  [("description", JStr "Upload a file");
   ("parameters", JArr traced);
   ("requestBody",
    JObj [("content", JObj [("multipart/form-data", JObj [])])])].



End More.

(** * Properties *)

(** ** Strings *)

Lemma sapp_nil_l (s : string) : EmptyString +:+ s = s.
Proof. reflexivity. Qed.

Lemma sapp_cons (a : ascii) (s t : string) :
  String a s +:+ t = String a (s +:+ t).
Proof. reflexivity. Qed.

Lemma sapp_nil_r (s : string) : s +:+ EmptyString = s.
Proof.
  induction s as [|a s IH]; [done |]. by rewrite sapp_cons, IH.
Qed.

Lemma sapp_assoc (s1 s2 s3 : string) : (s1 +:+ s2) +:+ s3 = s1 +:+ s2 +:+ s3.
Proof.
  induction s1 as [|a s1 IH]; [done |]. by rewrite !sapp_cons, IH.
Qed.

Lemma sconcat_cons (s : string) (l : list string) :
  concat (s :: l) = s +:+ concat l.
Proof. done. Qed.

Lemma sconcat_app (l1 l2 : list string) :
  concat (l1 ++ l2) = concat l1 +:+ concat l2.
Proof.
  induction l1 as [|s l1 IH]; [done |].
  change (concat (s :: (l1 ++ l2)) = concat (s :: l1) +:+ concat l2).
  by rewrite !sconcat_cons, IH, sapp_assoc.
Qed.

Create Rewrite HintDb sapp.
#[local] Hint Rewrite sapp_nil_l sapp_nil_r sapp_assoc sconcat_cons : sapp.

(** Both sides of an equation between concatenations, brought to the same
    bracketing. *)
Ltac sapp_norm := autorewrite with sapp; try reflexivity.

(** A conjunction of boolean tests in [H], split into its tests. *)
Ltac andb_hyps H :=
  repeat (let H' := fresh H in apply andb_prop in H as [H H']).

Lemma lstrip_cons (c a : ascii) (s : string) :
  lstrip c (String a s) = if Ascii.eqb a c then lstrip c s else String a s.
Proof. reflexivity. Qed.

Lemma startswith_cons (a b : ascii) (p s : string) :
  startswith (String a p) (String b s) = Ascii.eqb a b && startswith p s.
Proof. reflexivity. Qed.

Lemma lstrip_id (c : ascii) (s : string) :
  startswith (String c EmptyString) s = false → lstrip c s = s.
Proof.
  destruct s as [|a s]; simpl; [done |].
  rewrite andb_true_r, Ascii.eqb_sym. by intros ->.
Qed.

Lemma lstrip_slashes (n : nat) (rest : string) :
  startswith "/" rest = false → lstrip slash (slashes n +:+ rest) = rest.
Proof.
  intros Hrest. induction n as [|n IH].
  - by apply lstrip_id.
  - done.
Qed.

(** ** The filename of a page *)

(** C3, as amended. The filename is the lower-cased method, a hyphen, the
    path with all of its leading separators stripped and every separator
    left replaced by a hyphen, and the extension [.mdx]. *)
Theorem clean_filename_strips_leading (n : nat) (rest method : string) :
  startswith "/" rest = false →
  clean_filename (slashes n +:+ rest) method
  = lower method +:+ "-" +:+ replace slash hyphen rest +:+ ".mdx".
Proof.
  intros Hrest. unfold clean_filename. by rewrite lstrip_slashes.
Qed.

Lemma clean_filename_users_id :
  startswith "/" "users/{id}" = false
  ∧ clean_filename "/users/{id}" "GET" = "get-users-{id}.mdx".
Proof.
  split; [reflexivity |].
  exact (clean_filename_strips_leading 1 "users/{id}" "GET" eq_refl).
Defined.


(** The script and the specification agree on every path that does not
    start with two separators. *)
Lemma clean_filename_one_leading_separator (path method : string) :
  startswith "//" path = false →
  clean_filename path method = spec_clean_filename path method.
Proof.
  intros Hpath. unfold clean_filename, spec_clean_filename. do 3 f_equal.
  destruct path as [|a path]; [done |].
  unfold strip_one. rewrite lstrip_cons, startswith_cons in *.
  destruct (Ascii.eqb a slash) eqn:Ha; [|done].
  rewrite lstrip_id; [done |]. apply Ascii.eqb_eq in Ha as ->.
  by change (Ascii.eqb "/" slash) with true in Hpath.
Qed.

(** C3, as stated: with two leading separators the script strips both,
    where the specification strips one. *)
Lemma clean_filename_two_leading_separators :
  clean_filename "//users" "GET" = "get-users.mdx"
  ∧ spec_clean_filename "//users" "GET" = "get--users.mdx"
  ∧ clean_filename "//users" "GET" ≠ spec_clean_filename "//users" "GET".
Proof. split_and!; [reflexivity | reflexivity | discriminate]. Qed.

(** ** The last segment of a reference *)

Lemma rev_app_sapp (s1 s2 t : string) :
  String.rev_app s1 s2 +:+ t = String.rev_app s1 (s2 +:+ t).
Proof.
  revert s2. induction s1 as [|a s1 IH]; intros s2; simpl; [done |].
  by rewrite IH.
Qed.

Lemma after_last_id (c : ascii) (s : string) :
  has_char c s = false → after_last c s = s.
Proof. destruct s as [|a s]; simpl; [done |]. by intros ->. Qed.

Lemma last_item_split_go (c : ascii) (cur s : string) :
  Py.last_item (split_go c cur s)
  = Ok (if has_char c s then after_last c s else String.rev cur +:+ s).
Proof.
  revert cur. induction s as [|a s IH]; intros cur.
  - simpl. by rewrite sapp_nil_r.
  - simpl. destruct (Ascii.eqb a c) eqn:Hac; simpl.
    + unfold Py.last_item in *. rewrite last_cons.
      specialize (IH EmptyString). destruct (last (split_go c "" s)); [|done].
      simplify_eq. f_equal. destruct (has_char c s) eqn:Hs; [done|].
      by rewrite after_last_id.
    + rewrite IH. f_equal. destruct (has_char c s); [done |].
      unfold String.rev. simpl. by rewrite !rev_app_sapp.
Qed.

Lemma last_item_split (c : ascii) (s : string) :
  Py.last_item (split c s) = Ok (after_last c s).
Proof.
  unfold split. rewrite last_item_split_go.
  destruct (has_char c s) eqn:Hs; [done |]. by rewrite after_last_id.
Qed.


(** ** Python values *)

Lemma bind_Ok {A B : Type} (a : A) (f : A → result B) : Ok a ≫= f = f a.
Proof. reflexivity. Qed.

Lemma get_obj (d : dict) (k : string) (dflt : json) :
  Py.get (JObj d) k dflt = Ok (default dflt (Py.lookup k d)).
Proof. reflexivity. Qed.

Lemma contains_obj_Some (d : dict) (k : string) (v : json) :
  Py.lookup k d = Some v → Py.contains k (JObj d) = Ok true.
Proof. intros H. unfold Py.contains. by rewrite bool_decide_eq_true_2 by eauto. Qed.

Lemma contains_obj_None (d : dict) (k : string) :
  Py.lookup k d = None → Py.contains k (JObj d) = Ok false.
Proof.
  intros H. unfold Py.contains. rewrite bool_decide_eq_false_2; [done |].
  rewrite H. by intros [? ?].
Qed.

Lemma getitem_obj (d : dict) (k : string) (v : json) :
  Py.lookup k d = Some v → Py.getitem (JObj d) k = Ok v.
Proof. intros H. unfold Py.getitem. by rewrite H. Qed.

(** ** The data model *)

Lemma wf_operation_attrs (d : dict) :
  wf_operation (JObj d) = true →
  attr is_str "summary" d = true ∧ attr is_str "description" d = true
  ∧ attr wf_parameters "parameters" d = true
  ∧ attr wf_request_body "requestBody" d = true
  ∧ attr is_obj "responses" d = true ∧ attr is_arr "security" d = true.
Proof. simpl. intros H. by andb_hyps H. Qed.

Lemma wf_parameter_attrs (p : dict) :
  wf_parameter (JObj p) = true →
  attr is_str "name" p = true ∧ attr wf_schema "schema" p = true
  ∧ attr is_bool "required" p = true ∧ attr is_str "description" p = true.
Proof. simpl. intros H. by andb_hyps H. Qed.

Lemma default_attr_str (k dflt : string) (d : dict) :
  attr is_str k d = true →
  default (JStr dflt) (Py.lookup k d) = JStr (text k dflt d).
Proof.
  unfold attr, text. destruct (Py.lookup k d) as [[]|]; by try done.
Qed.

(** ** The field of the request body *)

Lemma request_body_fields_wf (d : dict) :
  attr wf_request_body "requestBody" d = true →
  request_body_fields (default (JObj []) (Py.lookup "requestBody" d))
  = Ok (body_block d).
Proof.
  unfold attr, body_block, json_media, request_body_fields.
  destruct (Py.lookup "requestBody" d) as [[| | | | |rb]|]; try done.
  intros Hrb. simpl in Hrb. unfold attr in Hrb. simpl default.
  destruct (Py.lookup "content" rb) as [v|] eqn:Ec.
  2:{ destruct (Py.truthy (JObj rb)); [|done].
      by rewrite contains_obj_None. }
  assert (Py.truthy (JObj rb) = true) as -> by by destruct rb.
  rewrite (contains_obj_Some _ _ _ Ec), bind_Ok, (getitem_obj _ _ _ Ec), bind_Ok.
  destruct v as [| | | | |c]; try done. simpl in Hrb. unfold attr in Hrb.
  destruct (Py.lookup "application/json" c) as [v|] eqn:Em.
  2:{ by rewrite contains_obj_None. }
  rewrite (contains_obj_Some _ _ _ Em), bind_Ok, (getitem_obj _ _ _ Em), bind_Ok.
  destruct v as [| | | | |m]; try done. simpl in Hrb. unfold attr in Hrb.
  rewrite get_obj, bind_Ok. unfold body_detail, schema_ref.
  destruct (Py.lookup "schema" m) as [v|] eqn:Es.
  2:{ simpl default. by rewrite contains_obj_None. }
  simpl default.
  destruct v as [| | | | |s]; try done. simpl in Hrb.
  apply andb_prop in Hrb as [_ Href]. unfold attr in Href.
  destruct (Py.lookup "$ref" s) as [v|] eqn:Er.
  2:{ by rewrite contains_obj_None. }
  rewrite (contains_obj_Some _ _ _ Er), bind_Ok, (getitem_obj _ _ _ Er), bind_Ok.
  destruct v as [| | |r| |]; try done.
  unfold Py.split. by rewrite bind_Ok, last_item_split, bind_Ok.
Qed.

(** ** The loops over the parameters *)

Lemma param_step_wf (kind : string) (p : json) (rf : string) (desc : json) :
  wf_parameter p = true →
  param_step kind p (rf, desc)
  = Ok (if located kind p
        then (rf +:+ param_block kind p, JStr (param_description p))
        else (rf, desc)).
Proof.
  destruct p as [| | | | |pd]; try done.
  intros (Hname & Hschema & Hreq & Hdesc)%wf_parameter_attrs.
  unfold param_step, located. cbv beta iota. rewrite (get_obj pd "in"), bind_Ok.
  destruct (Py.eq_str _ kind); [|done].
  unfold param_block, param_description.
  rewrite (get_obj pd "name"), bind_Ok, (default_attr_str _ _ _ Hname).
  rewrite (get_obj pd "schema"), bind_Ok.
  assert (Py.get (default (JObj []) (Py.lookup "schema" pd)) "type" (JStr "string")
          = Ok (JStr match Py.lookup "schema" pd with
                     | Some (JObj s) => text "type" "string" s
                     | _ => "string"
                     end)) as ->.
  { unfold attr in Hschema.
    destruct (Py.lookup "schema" pd) as [[| | | | |s]|]; try done.
    simpl in Hschema. apply andb_prop in Hschema as [Htype _].
    simpl default. by rewrite get_obj, (default_attr_str _ _ _ Htype). }
  rewrite bind_Ok, (get_obj pd "required"), bind_Ok.
  assert ((if Py.truthy (default (JBool false) (Py.lookup "required" pd))
           then "required" else EmptyString)
          = match Py.lookup "required" pd with
            | Some (JBool true) => "required"
            | _ => EmptyString
            end) as ->.
  { unfold attr in Hreq.
    by destruct (Py.lookup "required" pd) as [[| [] | | | |]|]. }
  simpl Py.str.
  by rewrite (get_obj pd "description"), bind_Ok, (default_attr_str _ _ _ Hdesc).
Qed.

Lemma for_each_cons {A S : Type} (x : A) (l : list A) (body : A → S → result S)
    (s : S) :
  Py.for_each (x :: l) body s = body x s ≫= Py.for_each l body.
Proof. reflexivity. Qed.

Lemma for_each_param_step (kind : string) (params : list json) (rf desc : string) :
  forallb wf_parameter params = true →
  Py.for_each params (param_step kind) (rf, JStr desc)
  = Ok (rf +:+ param_blocks kind params,
        JStr (description_after kind params desc)).
Proof.
  revert rf desc. induction params as [|p params IH]; intros rf desc Hwf.
  - unfold param_blocks, description_after. simpl. by rewrite sapp_nil_r.
  - simpl in Hwf. apply andb_prop in Hwf as [Hp Hwf].
    rewrite for_each_cons, (param_step_wf _ _ _ _ Hp).
    unfold param_blocks, description_after in *. rewrite filter_cons.
    destruct (located kind p) eqn:Hloc.
    + rewrite bind_Ok, (IH _ _ Hwf).
      rewrite decide_True by done. rewrite fmap_cons, sconcat_cons, sapp_assoc.
      rewrite last_cons. by destruct (last (filter _ params)).
    + rewrite bind_Ok, (IH _ _ Hwf). by rewrite decide_False by (by intros []).
Qed.

Lemma add_parameters_wf (d : dict) (rf desc : string) :
  attr wf_parameters "parameters" d = true →
  add_parameters (default (JArr []) (Py.lookup "parameters" d)) (rf, JStr desc)
  = Ok (rf +:+ param_blocks "path" (op_parameters d)
           +:+ param_blocks "query" (op_parameters d),
        JStr (description_after "query" (op_parameters d)
                (description_after "path" (op_parameters d) desc))).
Proof.
  unfold attr, op_parameters, add_parameters. intros Hwf.
  assert (∃ l, default (JArr []) (Py.lookup "parameters" d) = JArr l
               ∧ match Py.lookup "parameters" d with
                 | Some (JArr l') => l'
                 | _ => []
                 end = l
               ∧ forallb wf_parameter l = true) as (l & -> & -> & Hl).
  { destruct (Py.lookup "parameters" d) as [[| | | |l|]|]; try done; by eexists. }
  simpl Py.iter. rewrite bind_Ok, (for_each_param_step _ _ _ _ Hl), bind_Ok.
  by rewrite bind_Ok, (for_each_param_step _ _ _ _ Hl), sapp_assoc.
Qed.

(** ** The response fields *)

Lemma add_success_fields_empty (v : json) :
  add_success_fields v EmptyString
  = if Py.truthy v then SUCCESS_GROUP else EmptyString.
Proof.
  unfold add_success_fields, SUCCESS_GROUP. destruct (Py.truthy v); [|done].
  by rewrite sapp_nil_l, !sapp_assoc.
Qed.

Lemma foldl_error_step (acc : string) (l : dict) :
  foldl error_step acc l = acc +:+ concat (error_triplet <$> Py.keys l).
Proof.
  revert acc. induction l as [|[k v] l IH]; intros acc.
  - simpl. by rewrite sapp_nil_r.
  - unfold Py.keys in *. rewrite fmap_cons, fmap_cons, sconcat_cons. simpl foldl.
    rewrite IH. unfold error_triplet. by rewrite !sapp_assoc.
Qed.

Lemma keys_filter (P : string → bool) (l : dict) :
  Py.keys (filter (λ kv, P kv.1) l) = filter (λ k, P k) (Py.keys l).
Proof.
  unfold Py.keys. induction l as [|[k v] l IH]; [done |].
  rewrite fmap_cons, !filter_cons. simpl fst. destruct (P k) eqn:HP.
  - rewrite !decide_True by done. by rewrite fmap_cons, IH.
  - by rewrite !decide_False by (by intros []).
Qed.

Lemma add_error_fields_group (r : dict) (acc : string) :
  add_error_fields (filter (λ kv, is_error_status kv.1) r) acc
  = acc +:+ error_group r.
Proof.
  unfold add_error_fields, error_group, error_codes.
  rewrite <- keys_filter.
  destruct (filter _ r) as [|e errs] eqn:E.
  - by rewrite sapp_nil_r.
  - by rewrite foldl_error_step, !sapp_assoc.
Qed.

Lemma response_fields_of_groups (r : dict) :
  response_fields_of (JObj r) = Ok (success_group r +:+ error_group r).
Proof.
  unfold response_fields_of. rewrite get_obj, bind_Ok. simpl Py.items.
  rewrite bind_Ok, add_error_fields_group, add_success_fields_empty.
  unfold success_group, has_success. by destruct (Py.lookup "200" r).
Qed.

(** ** The page of an Operation *)

Lemma auth_note_of_wf (d : dict) :
  attr is_arr "security" d = true →
  auth_note_of (default (JArr []) (Py.lookup "security" d))
  = if requires_auth d then AUTH_NOTE else EmptyString.
Proof.
  unfold attr, requires_auth, auth_note_of.
  by destruct (Py.lookup "security" d) as [[| | | |[|x l]|]|].
Qed.

Section Page.

Context (path method : string) (d : dict).
Hypothesis Hwf : wf_operation (JObj d) = true.

(** The page of an Operation of the data model, slot by slot. *)
Lemma generate_mdx_content_wf :
  generate_mdx_content path method (JObj d)
  = Ok (mdx_content path method (own_title path method d)
          (shown_description path method d)
          (if requires_auth d then AUTH_NOTE else EmptyString)
          (spec_request_fields d)
          (success_group (op_responses d) +:+ error_group (op_responses d))
          (example_requests path method)).
Proof.
  destruct (wf_operation_attrs d Hwf)
    as (Hsum & Hdesc & Hparams & Hbody & Hresp & Hsec).
  unfold generate_mdx_content.
  rewrite (get_obj d "summary"), bind_Ok, (default_attr_str _ _ _ Hsum).
  rewrite (get_obj d "description"), bind_Ok, (default_attr_str _ _ _ Hdesc).
  rewrite (get_obj d "parameters"), bind_Ok, (get_obj d "requestBody"), bind_Ok.
  rewrite (request_body_fields_wf _ Hbody), bind_Ok.
  rewrite (add_parameters_wf _ _ _ Hparams), bind_Ok. cbv beta iota.
  rewrite (get_obj d "responses"), bind_Ok.
  assert (default (JObj []) (Py.lookup "responses" d) = JObj (op_responses d))
    as ->.
  { unfold attr, op_responses in *.
    by destruct (Py.lookup "responses" d) as [[]|]. }
  rewrite response_fields_of_groups, bind_Ok, (get_obj d "security"), bind_Ok.
  by rewrite (auth_note_of_wf _ Hsec).
Qed.

(** C10. Without a [summary] the title of the front matter is the
    upper-cased method, a space and the raw path; with one it is that
    summary. *)
Theorem title_is_summary_or_method_and_path :
  ∃ rest,
    generate_mdx_content path method (JObj d)
    = Ok (title_lines
            match Py.lookup "summary" d with
            | Some (JStr summary) => summary
            | _ => upper method +:+ " " +:+ path
            end +:+ rest).
Proof.
  rewrite generate_mdx_content_wf.
  unfold mdx_content, title_lines, own_title, text.
  eexists. by sapp_norm.
Qed.

(** Where no parameter is rendered, the description of the front matter
    and of the overview is the Operation's own, or the fallback. *)
Lemma description_without_rendered_parameter :
  filter (λ p, located "path" p) (op_parameters d) = [] →
  filter (λ p, located "query" p) (op_parameters d) = [] →
  ∃ title auth_note request_fields response_fields,
    generate_mdx_content path method (JObj d)
    = Ok (mdx_content path method title
            (text "description"
               ("API endpoint: " +:+ upper method +:+ " " +:+ path) d)
            auth_note request_fields response_fields
            (example_requests path method)).
Proof.
  intros Hpath Hquery. rewrite generate_mdx_content_wf.
  unfold shown_description, description_after. rewrite Hpath, Hquery.
  by do 4 eexists.
Qed.





End Page.

Lemma title_without_summary :
  wf_operation (JObj Sample.ping) = true
  ∧ ∃ rest,
      generate_mdx_content "/users/{id}" "get" (JObj Sample.ping)
      = Ok ("---" +:+ nl +:+ "title: " +:+ dq +:+ "GET /users/{id}" +:+ dq
            +:+ nl +:+ rest).
Proof.
  split; [reflexivity |].
  destruct (title_is_summary_or_method_and_path "/users/{id}" "get"
              Sample.ping eq_refl) as [rest Hrest].
  exists rest. rewrite Hrest. reflexivity.
Defined.





(** C1, at an Operation with a description and one path parameter: the
    text under [description] and in the overview is the fallback
    description of the parameter, not that of the Operation. *)
Theorem description_overwritten_by_parameter :
  wf_operation Sample.fetch_user = true
  ∧ Py.get Sample.fetch_user "description" JNull = Ok (JStr "Fetch a user")
  ∧ generate_mdx_content "/users/{id}" "get" Sample.fetch_user
    = Ok (mdx_content "/users/{id}" "get" "GET /users/{id}" "id parameter"
            EmptyString
            (param_field "path" "id" "string" EmptyString "id parameter")
            EmptyString (example_requests "/users/{id}" "get")).
Proof. split_and!; reflexivity. Qed.

(** ** The response fields of a mapping *)

(** C2, as amended. The success group is there exactly when the mapping
    has a [200] entry that is not empty; it is then the heading and the
    three fixed fields, whatever the entry holds. *)
Theorem success_group_iff_200_not_empty (r : dict) :
  response_fields_of (JObj r)
  = Ok ((if has_success r then SUCCESS_GROUP else EmptyString)
        +:+ error_group r)
  ∧ SUCCESS_GROUP
    = "### Success Responses" +:+ nl +:+ nl
      +:+ response_field "status" "number" "HTTP status code: 200"
      +:+ response_field "message" "string" "Success message"
      +:+ response_field "data" "object" "Response data"
  ∧ (has_success r = true
     ↔ ∃ v, Py.lookup "200" r = Some v ∧ Py.truthy v = true).
Proof.
  split_and!; [apply response_fields_of_groups | done |].
  unfold has_success. destruct (Py.lookup "200" r) as [v|].
  - split; [by exists v | by intros (? & [= <-] & ?)].
  - split; [done | by intros (? & ? & ?)].
Qed.

(** C2, as stated: the mapping has the key [200], and no success group is
    rendered. *)
Lemma success_group_empty_for_empty_200 :
  Py.lookup "200" [("200", JObj [])] = Some (JObj [])
  ∧ response_fields_of (JObj [("200", JObj [])]) = Ok EmptyString.
Proof. split; reflexivity. Qed.




(** ** The batch driver *)


















(** A run that completes leaves the same directory whatever [api] held
    before. *)
Lemma regenerate_all_docs_clears (spec : json) (files files' : gmap string string)
    (out : list string) (r : run) :
  regenerate_all_docs spec files out = Done r →
  regenerate_all_docs spec files' out = Done r.
Proof.
  unfold regenerate_all_docs. destruct (Py.get spec "paths" (JObj [])); [|done].
  by destruct (Py.items a).
Qed.

(** A run stops at the first exception and keeps the files written until
    then: here the second path has a list where an Operation should be. *)
Lemma failed_run_keeps_written_files :
  ∃ r,
    regenerate_all_docs
      (JObj [("paths",
              JObj [("/a", JObj [("get", JObj Sample.ping)]);
                    ("/b", JObj [("get", JArr [])]);
                    ("/c", JObj [("get", JObj Sample.ping)])])])
      ∅ []
    = Failed AttributeError r
    ∧ generated_count r = 1
    ∧ stdout r = ["Generated: api/get-a.mdx"]
    ∧ dom (api_dir r) = {[ "get-a.mdx" ]}.
Proof.
  eexists. split; [reflexivity |]. simpl.
  split_and!; [done | done |]. by rewrite dom_insert_L, dom_empty_L, (right_id_L ∅ (∪)).
Qed.

(** Two pairs whose names collide are both counted and share one file:
    here the methods [get] and [GET] on the same path. *)
Lemma colliding_pairs_share_a_file :
  ∃ r,
    regenerate_all_docs
      (JObj [("paths",
              JObj [("/a", JObj [("get", JObj Sample.ping);
                                 ("GET", JObj Sample.create_user)])])])
      ∅ []
    = Done r
    ∧ generated_count r = 2
    ∧ dom (api_dir r) = {[ "get-a.mdx" ]}
    ∧ Ok <$> api_dir r !! "get-a.mdx"
      = Some (generate_mdx_content "/a" "GET" (JObj Sample.create_user)).
Proof.
  eexists. split; [reflexivity |]. simpl. split_and!.
  - done.
  - change (clean_filename "/a" "get") with "get-a.mdx".
    change (clean_filename "/a" "GET") with "get-a.mdx".
    by rewrite !dom_insert_L, dom_empty_L, (right_id_L ∅ (∪)), (idemp_L (∪)).
  - change (clean_filename "/a" "get") with "get-a.mdx".
    change (clean_filename "/a" "GET") with "get-a.mdx".
    rewrite lookup_insert_eq. reflexivity.
Qed.

(** * Further properties of the script *)

(** ** The filename, lines 16-22 *)

Lemma has_char_app (c : ascii) (s t : string) :
  has_char c (s +:+ t) = has_char c s || has_char c t.
Proof.
  induction s as [|a s IH]; [done |].
  rewrite sapp_cons. simpl. by rewrite IH, orb_assoc.
Qed.









(** ** The page, lines 24-185 *)

Lemma forallb_filter_wf (P : json → Prop) `{!∀ p, Decision (P p)}
    (params : list json) :
  forallb wf_parameter params = true →
  forallb wf_parameter (filter P params) = true.
Proof.
  induction params as [|p params IH]; [done |]. simpl.
  intros [Hp Hwf]%andb_prop. rewrite filter_cons.
  destruct (decide (P p)); simpl; [rewrite Hp |]; by apply IH.
Qed.

Lemma filter_located_rendered (kind : string) (params : list json) :
  kind = "path" ∨ kind = "query" →
  filter (λ p, located kind p) (filter (λ p, rendered p) params)
  = filter (λ p, located kind p) params.
Proof.
  intros Hkind. rewrite list_filter_filter. apply list_filter_iff.
  intros p. unfold rendered. split; [by intros [? _] |].
  intros Hp. split; [done |]. destruct Hkind as [-> | ->].
  - by rewrite (Is_true_true_1 _ Hp).
  - rewrite (Is_true_true_1 _ Hp). by rewrite orb_true_r.
Qed.

(** A parameter that is in neither the path nor the query (a header, a
    cookie) leaves no trace in the request fields nor in the
    description. *)
Theorem unrendered_parameters_are_ignored (params : list json)
    (request_fields description : string) :
  forallb wf_parameter params = true →
  add_parameters (JArr params) (request_fields, JStr description)
  = add_parameters (JArr (filter (λ p, rendered p) params))
      (request_fields, JStr description).
Proof.
  intros Hwf.
  pose proof (forallb_filter_wf (λ p, rendered p) params Hwf) as Hwf'.
  unfold add_parameters. simpl Py.iter. rewrite !bind_Ok.
  rewrite (for_each_param_step _ _ _ _ Hwf), (for_each_param_step _ _ _ _ Hwf').
  rewrite !bind_Ok.
  rewrite (for_each_param_step _ _ _ _ Hwf), (for_each_param_step _ _ _ _ Hwf').
  unfold param_blocks, description_after.
  by rewrite !filter_located_rendered by auto.
Qed.

Lemma header_parameter_is_ignored :
  forallb wf_parameter More.traced = true
  ∧ add_parameters (JArr More.traced) (EmptyString, JStr "Upload a file")
    = add_parameters
        (JArr [Sample.param "id" "path"; Sample.param "limit" "query"])
        (EmptyString, JStr "Upload a file").
Proof.
  split; [reflexivity |].
  exact (unrendered_parameters_are_ignored More.traced EmptyString
           "Upload a file" eq_refl).
Defined.



(** A request body with no [application/json] entry in its content gives
    no body field: the request fields are those of the parameters. *)
Theorem no_body_field_without_json_content (path method : string) (d : dict) :
  wf_operation (JObj d) = true →
  json_media d = None →
  ∃ title description auth_note response_fields,
    generate_mdx_content path method (JObj d)
    = Ok (mdx_content path method title description auth_note
            (param_blocks "path" (op_parameters d)
             +:+ param_blocks "query" (op_parameters d))
            response_fields (example_requests path method)).
Proof.
  intros Hwf Hmedia. rewrite (generate_mdx_content_wf _ _ _ Hwf).
  unfold spec_request_fields, body_block. rewrite Hmedia, sapp_nil_l.
  by do 4 eexists.
Qed.

Lemma no_body_field_for_form_upload :
  wf_operation (JObj More.upload) = true
  ∧ json_media More.upload = None
  ∧ ∃ title description auth_note response_fields,
      generate_mdx_content "/files" "post" (JObj More.upload)
      = Ok (mdx_content "/files" "post" title description auth_note
              (param_field "path" "id" "string" EmptyString "id parameter"
               +:+ param_field "query" "limit" "string" EmptyString
                     "limit parameter")
              response_fields (example_requests "/files" "post")).
Proof.
  split; [reflexivity |]. split; [reflexivity |].
  destruct (no_body_field_without_json_content "/files" "post" More.upload
              eq_refl eq_refl)
    as (title & description & auth_note & response_fields & Hpage).
  exists title, description, auth_note, response_fields.
  rewrite Hpage. reflexivity.
Defined.

(** A [parameters] attribute that is present and is [null], a boolean or
    a number is not taken as absent: the loop of line 47 raises
    [TypeError]. *)
Theorem scalar_parameters_raise (path method : string) (d : dict) (v : json) :
  attr wf_request_body "requestBody" d = true →
  Py.lookup "parameters" d = Some v →
  not_iterable v = true →
  generate_mdx_content path method (JObj d) = Raise TypeError.
Proof.
  intros Hbody Hparams Hv. unfold generate_mdx_content.
  rewrite (get_obj d "summary"), bind_Ok, (get_obj d "description"), bind_Ok.
  rewrite (get_obj d "parameters"), bind_Ok, (get_obj d "requestBody"), bind_Ok.
  rewrite (request_body_fields_wf _ Hbody), bind_Ok, Hparams.
  by destruct v.
Qed.

Lemma null_parameters_raise :
  attr wf_request_body "requestBody" [("parameters", JNull)] = true
  ∧ Py.lookup "parameters" [("parameters", JNull)] = Some JNull
  ∧ not_iterable JNull = true
  ∧ generate_mdx_content "/users" "get" (JObj [("parameters", JNull)])
    = Raise TypeError.
Proof.
  split; [reflexivity |]. split; [reflexivity |]. split; [reflexivity |].
  exact (scalar_parameters_raise "/users" "get" [("parameters", JNull)] JNull
           eq_refl eq_refl eq_refl).
Defined.



(** ** The response fields, lines 65-82 *)

Lemma lookup_app_other (k k' : string) (v : json) (r1 r2 : dict) :
  k' ≠ k → Py.lookup k' (r1 ++ (k, v) :: r2) = Py.lookup k' (r1 ++ r2).
Proof.
  intros Hne. induction r1 as [|[k1 v1] r1 IH]; simpl.
  - by rewrite (proj2 (String.eqb_neq k' k) Hne).
  - by rewrite IH.
Qed.

(** A status code that is not [200] and starts with neither [4] nor [5]
    (a [201], a [302], [default]) is never rendered. *)
Theorem other_status_codes_are_ignored (r1 r2 : dict) (k : string) (v : json) :
  k ≠ "200" → is_error_status k = false →
  response_fields_of (JObj (r1 ++ (k, v) :: r2))
  = response_fields_of (JObj (r1 ++ r2)).
Proof.
  intros Hk Herr. rewrite !response_fields_of_groups. do 2 f_equal.
  - unfold success_group, has_success. by rewrite lookup_app_other.
  - unfold error_group, error_codes, Py.keys.
    rewrite !fmap_app, fmap_cons, !filter_app, filter_cons. simpl.
    by rewrite decide_False by (rewrite Herr; by intros []).
Qed.

Lemma created_response_is_ignored :
  "201" ≠ "200" ∧ is_error_status "201" = false
  ∧ response_fields_of
      (JObj [("200", JObj [("description", JStr "OK")]);
             ("201", JObj [("description", JStr "Created")]);
             ("404", JObj [])])
    = response_fields_of
        (JObj [("200", JObj [("description", JStr "OK")]); ("404", JObj [])]).
Proof.
  split; [discriminate |]. split; [reflexivity |].
  apply (other_status_codes_are_ignored
           [("200", JObj [("description", JStr "OK")])] [("404", JObj [])]
           "201" (JObj [("description", JStr "Created")]));
    [discriminate | reflexivity].
Defined.

(** The response fields do not read the responses: two mappings with the
    same keys in the same order, whose [200] entries are both empty or
    both not, give the same text. *)
Theorem response_fields_ignore_schemas (r r' : dict) :
  Py.keys r = Py.keys r' →
  has_success r = has_success r' →
  response_fields_of (JObj r) = response_fields_of (JObj r').
Proof.
  intros Hkeys Hsuccess. rewrite !response_fields_of_groups.
  unfold success_group, error_group, error_codes.
  by rewrite Hkeys, Hsuccess.
Qed.

Lemma response_fields_of_two_schemas :
  Py.keys [("200", JObj [("description", JStr "A user")]); ("404", JNull)]
  = Py.keys [("200", JArr [JNum 1]); ("404", JObj [("x", JStr "y")])]
  ∧ has_success [("200", JObj [("description", JStr "A user")]); ("404", JNull)]
    = has_success [("200", JArr [JNum 1]); ("404", JObj [("x", JStr "y")])]
  ∧ response_fields_of
      (JObj [("200", JObj [("description", JStr "A user")]); ("404", JNull)])
    = response_fields_of
        (JObj [("200", JArr [JNum 1]); ("404", JObj [("x", JStr "y")])]).
Proof.
  split; [reflexivity |]. split; [reflexivity |].
  exact (response_fields_ignore_schemas
           [("200", JObj [("description", JStr "A user")]); ("404", JNull)]
           [("200", JArr [JNum 1]); ("404", JObj [("x", JStr "y")])]
           eq_refl eq_refl).
Defined.

(** ** The driver, lines 187-220 *)



(** A specification with no path, or no [paths] at all, still empties the
    directory and reports no file. *)
Theorem no_paths_no_files (top : dict) (files : gmap string string)
    (out : list string) :
  attr is_obj "paths" top = true →
  spec_paths top = [] →
  regenerate_all_docs (JObj top) files out
  = Done (Run ∅ 0 (out ++ [nl +:+ "Generated 0 API documentation files"])).
Proof.
  unfold attr, spec_paths, regenerate_all_docs. rewrite get_obj.
  destruct (Py.lookup "paths" top) as [[| | | | |ps]|]; try done.
  by intros _ ->.
Qed.

Lemma old_files_are_removed_without_paths :
  attr is_obj "paths" [("openapi", JStr "3.0.0")] = true
  ∧ spec_paths [("openapi", JStr "3.0.0")] = []
  ∧ regenerate_all_docs (JObj [("openapi", JStr "3.0.0")])
      {[ "get-old.mdx" := "old page" ]} []
    = Done (Run ∅ 0 [nl +:+ "Generated 0 API documentation files"]).
Proof.
  split; [reflexivity |]. split; [reflexivity |].
  exact (no_paths_no_files [("openapi", JStr "3.0.0")]
           {[ "get-old.mdx" := "old page" ]} [] eq_refl eq_refl).
Defined.




Lemma run_each_same {A : Type} (body : A → run → outcome) (l : list A) :
  (∀ x r1 r2, same_files r1 r2 → same_outcome (body x r1) (body x r2)) →
  ∀ r1 r2, same_files r1 r2 →
    same_outcome (run_each body l r1) (run_each body l r2).
Proof.
  intros Hbody. induction l as [|x l IH]; intros r1 r2 Hsame; [done |].
  simpl. specialize (Hbody x r1 r2 Hsame).
  destruct (body x r1) as [r1'|e1 r1'], (body x r2) as [r2'|e2 r2']; try done.
  by apply IH.
Qed.

Lemma operation_step_same (path : string) (item : string * json) (r1 r2 : run) :
  same_files r1 r2 →
  same_outcome (operation_step path item r1) (operation_step path item r2).
Proof.
  intros [Hfiles Hcount]. destruct item as [method operation].
  unfold operation_step. destruct (supported method); [|done].
  destruct (generate_mdx_content path method operation); [|done].
  split; simpl; congruence.
Qed.

Lemma path_step_same (item : string * json) (r1 r2 : run) :
  same_files r1 r2 → same_outcome (path_step item r1) (path_step item r2).
Proof.
  intros Hsame. destruct item as [path path_item]. unfold path_step.
  destruct (Py.items path_item) as [operations|]; [|done].
  apply run_each_same; [apply operation_step_same | done].
Qed.

(** The files and the count of a run that completes depend on the
    specification alone: whatever [api] held and whatever was printed
    before, and so also when the script is run again on its own output,
    the run completes with the same files and the same count. *)
Theorem rerun_gives_same_files (spec : json) (files files' : gmap string string)
    (out out' : list string) (r : run) :
  regenerate_all_docs spec files out = Done r →
  ∃ r', regenerate_all_docs spec files' out' = Done r'
        ∧ api_dir r' = api_dir r ∧ generated_count r' = generated_count r.
Proof.
  unfold regenerate_all_docs.
  destruct (Py.get spec "paths" (JObj [])) as [paths|]; [|done].
  destruct (Py.items paths) as [items|]; [|done].
  pose proof (run_each_same path_step items path_step_same
                (Run ∅ 0 out) (Run ∅ 0 out') (conj eq_refl eq_refl)) as Hsame.
  destruct (run_each path_step items (Run ∅ 0 out)) as [r1|]; [|done].
  destruct (run_each path_step items (Run ∅ 0 out')) as [r2|]; [|done].
  destruct Hsame as [Hfiles Hcount]. intros [= <-].
  eexists. split; [done |]. by simpl.
Qed.

Lemma rerun_of_sample_specification :
  ∃ r r',
    regenerate_all_docs (JObj Sample.openapi) ∅ [] = Done r
    ∧ regenerate_all_docs (JObj Sample.openapi) (api_dir r) (stdout r) = Done r'
    ∧ api_dir r' = api_dir r ∧ generated_count r' = generated_count r.
Proof.
  assert (∃ r, regenerate_all_docs (JObj Sample.openapi) ∅ [] = Done r)
    as [r Hrun] by (eexists; reflexivity).
  destruct (rerun_gives_same_files (JObj Sample.openapi) ∅ (api_dir r) []
              (stdout r) r Hrun) as (r' & Hrun' & Hfiles & Hcount).
  by exists r, r'.
Defined.

Lemma operation_step_counted (out : list string) (path : string)
    (item : string * json) (r : run) :
  counted out r → counted out (run_of (operation_step path item r)).
Proof.
  intros [Hout Hsize]. destruct item as [method operation].
  unfold operation_step. destruct (supported method); [|done].
  destruct (generate_mdx_content path method operation); [|done].
  split; simpl.
  - rewrite length_app. simpl. lia.
  - rewrite map_size_insert. destruct (api_dir r !! _); simpl; lia.
Qed.

Lemma run_each_counted {A : Type} (out : list string)
    (body : A → run → outcome) (l : list A) :
  (∀ x r, counted out r → counted out (run_of (body x r))) →
  ∀ r, counted out r → counted out (run_of (run_each body l r)).
Proof.
  intros Hbody. induction l as [|x l IH]; intros r Hr; [done |].
  simpl. specialize (Hbody x r Hr).
  destruct (body x r) as [r'|e r']; [by apply IH | done].
Qed.

Lemma path_step_counted (out : list string) (item : string * json) (r : run) :
  counted out r → counted out (run_of (path_step item r)).
Proof.
  intros Hr. destruct item as [path path_item]. unfold path_step.
  destruct (Py.items path_item) as [operations|]; [|done].
  apply run_each_counted; [apply operation_step_counted | done].
Qed.

(** On every specification that is an object, however the run ends, the
    counter is the number of pages logged and no more files are in the
    directory than were counted; a run that completes prints one line
    more, the total. *)
Theorem counter_counts_logged_pages (top : dict) (files : gmap string string)
    (out : list string) :
  match regenerate_all_docs (JObj top) files out with
  | Done r =>
      length (stdout r) = length out + generated_count r + 1
      ∧ size (api_dir r) ≤ generated_count r
  | Failed _ r =>
      length (stdout r) = length out + generated_count r
      ∧ size (api_dir r) ≤ generated_count r
  end.
Proof.
  unfold regenerate_all_docs. rewrite get_obj.
  assert (counted out (Run ∅ 0 out)) as Hstart.
  { split; simpl; [lia |]. by rewrite map_size_empty. }
  destruct (Py.items _) as [items|]; [|done].
  pose proof (run_each_counted out path_step items (path_step_counted out)
                _ Hstart) as [Hout Hsize].
  destruct (run_each path_step items _) as [r|e r]; simpl in *; [|done].
  split; [|done]. rewrite length_app. simpl. lia.
Qed.

(** ** The name of a referenced schema, lines 39-42 *)

Lemma has_char_after (c : ascii) (pre name : string) :
  has_char c (pre +:+ String c name) = true.
Proof.
  rewrite has_char_app. simpl. by rewrite Ascii.eqb_refl, orb_true_r.
Qed.

Lemma after_last_joined (c : ascii) (pre name : string) :
  has_char c name = false → after_last c (pre +:+ String c name) = name.
Proof.
  intros Hname. induction pre as [|a pre IH].
  - rewrite sapp_nil_l. simpl. rewrite Ascii.eqb_refl. simpl.
    by apply after_last_id.
  - rewrite sapp_cons.
    change (after_last c (String a (pre +:+ String c name)))
      with (if has_char c (String a (pre +:+ String c name))
            then after_last c (pre +:+ String c name)
            else String a (pre +:+ String c name)).
    simpl has_char. by rewrite has_char_after, orb_true_r.
Qed.

(** The body field names what follows the last separator of the
    reference, whatever comes before it; after a trailing separator the
    name is empty. *)
Theorem schema_name_is_last_segment (pre name : string) :
  has_char slash name = false →
  request_body_fields
    (JObj [("content",
            JObj [("application/json",
                   JObj [("schema",
                          JObj [("$ref", JStr (pre +:+ "/" +:+ name))])])])])
  = Ok (body_field (" (" +:+ name +:+ ")")).
Proof.
  intros Hname.
  pose proof (request_body_fields_wf
                [("requestBody",
                  JObj [("content",
                         JObj [("application/json",
                                JObj [("schema",
                                       JObj [("$ref",
                                              JStr (pre +:+ "/" +:+ name))])])])])]
                eq_refl) as Hfields.
  change (default _ _)
    with (JObj [("content",
                 JObj [("application/json",
                        JObj [("schema",
                               JObj [("$ref", JStr (pre +:+ "/" +:+ name))])])])])
    in Hfields.
  rewrite Hfields.
  change (body_block _)
    with (body_field
            (" (" +:+ after_last slash (pre +:+ String slash name) +:+ ")")).
  by rewrite (after_last_joined _ _ _ Hname).
Qed.

Lemma schema_name_of_nested_reference :
  has_char slash "User" = false
  ∧ request_body_fields
      (JObj [("content",
              JObj [("application/json",
                     JObj [("schema",
                            JObj [("$ref",
                                   JStr "defs.json#/components/schemas/User")])])])])
    = Ok (body_field " (User)").
Proof.
  split; [reflexivity |].
  exact (schema_name_is_last_segment "defs.json#/components/schemas" "User"
           eq_refl).
Defined.

(** ** Methods on one path *)

Lemma length_sapp (s t : string) :
  String.length (s +:+ t) = String.length s + String.length t.
Proof.
  induction s as [|a s IH]; [done |]. rewrite sapp_cons. simpl. by rewrite IH.
Qed.

Lemma sapp_cancel_r (s1 s2 t : string) : s1 +:+ t = s2 +:+ t → s1 = s2.
Proof.
  revert s2. induction s1 as [|a s1 IH]; intros [|b s2] Heq; [done | | |].
  - apply (f_equal String.length) in Heq.
    rewrite sapp_nil_l, sapp_cons in Heq. simpl in Heq.
    rewrite length_sapp in Heq. lia.
  - apply (f_equal String.length) in Heq.
    rewrite sapp_nil_l, sapp_cons in Heq. simpl in Heq.
    rewrite length_sapp in Heq. lia.
  - rewrite !sapp_cons in Heq. injection Heq as -> Heq. f_equal. by apply IH.
Qed.

(** Two methods of one path get the same file only when they differ in
    the case of their letters alone. *)
Theorem same_file_on_one_path_only_by_case (path method1 method2 : string) :
  clean_filename path method1 = clean_filename path method2 →
  same_method method1 method2.
Proof.
  unfold clean_filename, same_method. cbv zeta. intros Heq.
  by apply sapp_cancel_r in Heq.
Qed.

Lemma get_and_GET_share_a_file :
  clean_filename "/users" "get" = clean_filename "/users" "GET"
  ∧ same_method "get" "GET".
Proof.
  split; [reflexivity |].
  exact (same_file_on_one_path_only_by_case "/users" "get" "GET" eq_refl).
Defined.
